(** * SurveyApp: the submission validator and the statistics aggregator

    A shallow embedding of the survey routes (the [validateSurvey] middleware
    array and the router), of [models/Survey.js] ([surveySchema]) and of
    [controllers/surveyController.js] ([submitSurvey], [getSurveyStats]).

    JavaScript numbers are IEEE 754 binary64 values.  The integers the program
    handles (ages, counts, ratings and their sums) are small enough to be exact
    and are kept in [Z]; the quotients and products it forms are rounded, and
    the rounding is written out in [Binary64]. *)

From Stdlib Require Import ZArith QArith Qround Qabs Lia List Sorted Permutation String Ascii Bool.
From Stdlib Require Import DecimalString DecimalN.
From Stdlib Require Import PrimFloat FloatOps SpecFloat Uint63.
Import ListNotations.

Local Open Scope Z_scope.

(** ** Binary64 arithmetic on exact rationals *)

Module Binary64.

(** A finite double is the rational it denotes.  The exponent range of the
    format is not modelled: every quotient and product formed by the
    aggregator is far inside the normal range. *)
Definition double := Q.

(** [rne n d]: the integer nearest to [n / d], ties to the even one. *)
Definition rne (n d : Z) : Z :=
  let q := n / d in
  match (2 * (n mod d)) ?= d with
  | Lt => q
  | Gt => q + 1
  | Eq => if Z.even q then q else q + 1
  end.

(** [round_pos a b]: the double nearest to [a / b] for positive [a], [b].
    The quotient is scaled by [2^s] to have at least 54 bits, [L] is the
    position of its leading bit, and the scaled quotient is rounded to a
    multiple of [u = 2^(L-52)], which leaves a 53-bit significand [m]. *)
Definition round_pos (a b : Z) : double :=
  let s := Z.max 0 (54 + Z.log2 b - Z.log2 a) in
  let A := a * 2 ^ s in
  let L := Z.log2 (A / b) in
  let u := 2 ^ (L - 52) in
  let m := rne A (b * u) in
  Qmake (m * u) (Z.to_pos (2 ^ s)).

(** Round to nearest, ties to even, symmetric in the sign. *)
Definition fl (q : Q) : double :=
  match Qnum q with
  | 0 => 0%Q
  | Zpos a => round_pos (Zpos a) (Zpos (Qden q))
  | Zneg a => Qopp (round_pos (Zpos a) (Zpos (Qden q)))
  end.

(** The operators [/] and [*] of the language. *)
Definition div (x y : double) : double := fl (x / y)%Q.
Definition mul (x y : double) : double := fl (x * y)%Q.

(** An integer below 2^53 in magnitude is a double as it stands. *)
Definition of_int (n : Z) : double := inject_Z n.

End Binary64.

(** The rational denoted by one of the prover's own binary64 numbers. *)
Definition valueOfFloat (x : PrimFloat.float) : option Q :=
  match Prim2SF x with
  | S754_zero _ => Some 0%Q
  | S754_finite negative m e =>
      let v := if 0 <=? e then Qmake (Zpos m * 2 ^ e) 1
               else Qmake (Zpos m) (Z.to_pos (2 ^ (- e))) in
      Some (if negative then Qopp v else v)
  | _ => None
  end.

(** The quotient of two small integers, and its product by 100, on the
    prover's binary64 numbers. *)
Definition hardwareQuotient (a b : Z) : option Q :=
  valueOfFloat (PrimFloat.div (PrimFloat.of_uint63 (Uint63.of_Z a))
                              (PrimFloat.of_uint63 (Uint63.of_Z b))).

Definition hardwarePercentage (a b : Z) : option Q :=
  valueOfFloat (PrimFloat.mul (PrimFloat.div (PrimFloat.of_uint63 (Uint63.of_Z a))
                                             (PrimFloat.of_uint63 (Uint63.of_Z b)))
                              (PrimFloat.of_uint63 100)).

Definition sameValue (x : option Q) (y : Q) : bool :=
  match x with Some q => Qeq_bool q y | None => false end.

(** ** Number.prototype.toFixed(1) *)

(** [tenths x]: the integer [n] for which [n / 10 - x] is closest to zero,
    the larger [n] when there are two; [x] is not negative here. *)
Definition tenths (x : Q) : Z := Qfloor (x * 10 + (1 # 2))%Q.

Definition decimal (n : Z) : string := NilZero.string_of_uint (N.to_uint (Z.to_N n)).

(** A sign and a number of tenths, written with one digit after the point. *)
Definition fixed1 (negative : bool) (n : Z) : string :=
  ((if negative then "-" else "") ++ decimal (n / 10) ++ "." ++ decimal (n mod 10))%string.

(** [x.toFixed(1)] for a finite [x] below 10^21 in magnitude: a negative [x]
    gives ["-"] followed by the digits of [-x]. *)
Definition toFixed1 (x : Binary64.double) : string :=
  fixed1 (Qnum x <? 0) (tenths (Qabs x)).

(** ** Strings as validator.js sees them

    A string is a sequence of code units; the model keeps the code units
    below 256, for which a string's length is its number of characters. *)

Definition code (c : ascii) : nat := nat_of_ascii c.

(** The class [\s] restricted to code units below 256. *)
Definition isWhitespace (c : ascii) : bool :=
  ((9 <=? code c) && (code c <=? 13) || (code c =? 32) || (code c =? 160))%nat.

Definition isDigit (c : ascii) : bool := ((48 <=? code c) && (code c <=? 57))%nat.

Definition isSign (c : ascii) : bool := ((code c =? 43) || (code c =? 45))%nat.

Fixpoint ltrim (s : string) : string :=
  match s with
  | EmptyString => EmptyString
  | String c r => if isWhitespace c then ltrim r else s
  end.

Fixpoint rtrim (s : string) : string :=
  match s with
  | EmptyString => EmptyString
  | String c r =>
      match rtrim r with
      | EmptyString => if isWhitespace c then EmptyString else String c EmptyString
      | r' => String c r'
      end
  end.

Definition trim (s : string) : string := rtrim (ltrim s).

Definition isEmpty (s : string) : bool := (String.length s =? 0)%nat.

Definition isLength (min max : nat) (s : string) : bool :=
  ((min <=? String.length s) && (String.length s <=? max))%nat.

Fixpoint allDigits (s : string) : bool :=
  match s with
  | EmptyString => true
  | String c r => isDigit c && allDigits r
  end.

(** [[0-9]+] *)
Definition digits1 (s : string) : bool := negb (isEmpty s) && allDigits s.

(** [([0-9]*[.])?[0-9]+] up to the end of the string. *)
Fixpoint numericBody (s : string) : bool :=
  match s with
  | EmptyString => false
  | String c r =>
      if isDigit c then (match r with EmptyString => true | _ => numericBody r end)
      else (code c =? 46)%nat && digits1 r
  end.

Definition dropSign (s : string) : string :=
  match s with
  | String c r => if isSign c then r else s
  | EmptyString => s
  end.

(** [isNumeric(str)] without options: [/^[+-]?([0-9]*[.])?[0-9]+$/]. *)
Definition isNumeric (s : string) : bool := numericBody (dropSign s).

Fixpoint digitsValue (acc : Z) (s : string) : Z :=
  match s with
  | EmptyString => acc
  | String c r => digitsValue (10 * acc + (Z.of_nat (code c) - 48)) r
  end.

(** The number denoted by a string of the form [[-+]?[0-9]+]. *)
Definition intValue (s : string) : option Z :=
  if digits1 (dropSign s) then
    Some (match s with
          | String c _ => if (code c =? 45)%nat then - digitsValue 0 (dropSign s)
                          else digitsValue 0 (dropSign s)
          | EmptyString => 0
          end)
  else None.

(** [isInt(str, {min, max})]: [/^[-+]?[0-9]+$/] and [str >= min], [str <= max]
    as numbers. *)
Definition isInt (min max : Z) (s : string) : bool :=
  match intValue s with
  | Some n => (min <=? n) && (n <=? max)
  | None => false
  end.

(** ** Dates

    A [Date] is held as the fields its accessors return in the time zone of
    the server; [getMonth] counts from 0.  A date written [2020-06-15] is the
    date with the fields 2020, 5 and 15. *)
Record Date : Type := { getFullYear : Z; getMonth : Z; getDate : Z }.

(** ** The request body

    A scalar field is absent ([None]) or the string the validators see; the
    food list is absent (or not an array) or an array of strings. *)
Record body : Type := {
  fullName : option string;
  email : option string;
  contactNumber : option string;
  dateOfBirth : option string;
  favoriteFoods : option (list string);
  ratings_eatOut : option string;
  ratings_watchMovies : option string;
  ratings_watchTV : option string;
  ratings_listenRadio : option string
}.

Inductive field : Type :=
| FullName | Email | ContactNumber | DateOfBirth | FavoriteFoods
| RatingsEatOut | RatingsWatchMovies | RatingsWatchTV | RatingsListenRadio.

(** The path given to [body(...)]. *)
Definition path (f : field) : string :=
  match f with
  | FullName => "fullName"
  | Email => "email"
  | ContactNumber => "contactNumber"
  | DateOfBirth => "dateOfBirth"
  | FavoriteFoods => "favoriteFoods"
  | RatingsEatOut => "ratings.eatOut"
  | RatingsWatchMovies => "ratings.watchMovies"
  | RatingsWatchTV => "ratings.watchTV"
  | RatingsListenRadio => "ratings.listenRadio"
  end%string.


(** ** express-validator chains

    A chain runs all of its steps in order on the field's value.  A sanitizer
    replaces the value; a validator that fails records its message and the
    chain goes on (there is no [bail()]). *)
Inductive step (V : Type) : Type :=
| sanitizer (f : V -> V)
| validator (ok : V -> bool) (message : string).
Arguments sanitizer {V} f.
Arguments validator {V} ok message.

Fixpoint run {V : Type} (steps : list (step V)) (v : V) : V * list string :=
  match steps with
  | [] => (v, [])
  | sanitizer f :: k => run k (f v)
  | validator ok msg :: k =>
      let (v', errs) := run k v in
      (v', if ok v then errs else msg :: errs)
  end.

(** The standard validators and sanitizers work on the value's string form:
    an absent value is the empty string. *)
Definition toString (v : option string) : string :=
  match v with Some s => s | None => EmptyString end.

Definition standardSanitizer (f : string -> string) : step (option string) :=
  sanitizer (fun v => Some (f (toString v))).

Definition standardValidator (p : string -> bool) (msg : string) : step (option string) :=
  validator (fun v => p (toString v)) msg.

(** [.notEmpty()] is [.not().isEmpty()]. *)
Definition notEmpty : string -> step (option string) :=
  standardValidator (fun s => negb (isEmpty s)).

(** An error as the request context holds it. *)
Definition error : Type := (field * string)%type.

(** A middleware transforms the request body and adds errors to the context. *)
Definition middleware : Type := body -> body * list error.

Definition chainOn {V : Type} (f : field) (get : body -> V) (set : V -> body -> body)
    (steps : list (step V)) : middleware :=
  fun b => let (v', msgs) := run steps (get b) in (set v' b, map (pair f) msgs).

Definition set_fullName (v : option string) (b : body) : body :=
  {| fullName := v; email := email b; contactNumber := contactNumber b;
     dateOfBirth := dateOfBirth b; favoriteFoods := favoriteFoods b;
     ratings_eatOut := ratings_eatOut b; ratings_watchMovies := ratings_watchMovies b;
     ratings_watchTV := ratings_watchTV b; ratings_listenRadio := ratings_listenRadio b |}.

Definition set_email (v : option string) (b : body) : body :=
  {| fullName := fullName b; email := v; contactNumber := contactNumber b;
     dateOfBirth := dateOfBirth b; favoriteFoods := favoriteFoods b;
     ratings_eatOut := ratings_eatOut b; ratings_watchMovies := ratings_watchMovies b;
     ratings_watchTV := ratings_watchTV b; ratings_listenRadio := ratings_listenRadio b |}.

Definition set_contactNumber (v : option string) (b : body) : body :=
  {| fullName := fullName b; email := email b; contactNumber := v;
     dateOfBirth := dateOfBirth b; favoriteFoods := favoriteFoods b;
     ratings_eatOut := ratings_eatOut b; ratings_watchMovies := ratings_watchMovies b;
     ratings_watchTV := ratings_watchTV b; ratings_listenRadio := ratings_listenRadio b |}.

(** A chain without a sanitizer leaves the body as it is. *)
Definition keep {V : Type} (_ : V) (b : body) : body := b.

Definition validFoods : list string := ["Pizza"; "Pap and Wors"; "Other"; "Pasta"]%string.

(** [xs.includes(x)] for strings. *)
Definition includes (xs : list string) (x : string) : bool := existsb (String.eqb x) xs.

(** ** The persisted document ([models/Survey.js]) *)

Module Survey.

Record Ratings : Type := { eatOut : Z; watchMovies : Z; watchTV : Z; listenRadio : Z }.

Record t : Type := {
  fullName : string;
  email : string;
  contactNumber : string;
  dateOfBirth : Date;
  favoriteFoods : list string;
  ratings : Ratings
}.

End Survey.

(** ** Responses *)

Inductive response : Type :=
| Created (message : string)                        (* 201 *)
| ValidationFailed (errors : list (string * string)) (* 400, field and message *)
| SaveRejected                                       (* 400, the schema's ValidationError *)
| TooManyRequests.                                   (* 429 *)

Section Routes.

(** validator.js and the runtime, as far as the program only calls them. *)
Variable isEmail : string -> bool.
Variable normalizeEmail : string -> string.
Variable isISO8601 : string -> bool.
(** [new Date(value)] on a string; [None] is an Invalid Date.  The schema's
    Date cast calls the same constructor. *)
Variable newDate : string -> option Date.

(** The custom validator of [dateOfBirth] (lines 42-56). *)
Definition validateSurvey_age (today birthDate : Date) : Z :=
  let age := getFullYear today - getFullYear birthDate in
  let monthDiff := getMonth today - getMonth birthDate in
  if (monthDiff <? 0) || ((monthDiff =? 0) && (getDate today <? getDate birthDate))
  then age - 1
  else age.

(** With an Invalid Date every accessor is NaN and both comparisons are
    false, so nothing is thrown. *)
Definition dateOfBirth_custom (today : Date) (value : option string) : bool :=
  match match value with Some s => newDate s | None => None end with
  | Some birthDate =>
      let age := validateSurvey_age today birthDate in
      negb ((age <? 5) || (age >? 120))
  | None => true
  end.

(** [isArray({ min: 1 })] *)
Definition isArrayMin1 (value : option (list string)) : bool :=
  match value with
  | Some foods => (1 <=? List.length foods)%nat
  | None => false
  end.

(** [foods.every(food => validFoods.includes(food))]; on a value that is
    not an array the call throws, which fails the validator as well. *)
Definition favoriteFoods_custom (value : option (list string)) : bool :=
  match value with
  | Some foods => forallb (includes validFoods) foods
  | None => false
  end.

(** The chain shared by the four ratings. *)
Definition ratingChain (required : string) : list (step (option string)) :=
  [ notEmpty required;
    standardValidator (isInt 1 5) "Rating must be between 1-5" ].

Definition rating (f : field) (get : body -> option string) (required : string) : middleware :=
  chainOn f get keep (ratingChain required).

Definition fullNameChain : list (step (option string)) :=
  [ standardSanitizer trim;
    notEmpty "Full name is required";
    standardValidator (isLength 2 50) "Name must be between 2-50 characters" ].

Definition emailChain : list (step (option string)) :=
  [ standardSanitizer trim;
    notEmpty "Email is required";
    standardValidator isEmail "Please enter a valid email";
    standardSanitizer normalizeEmail ].

Definition contactNumberChain : list (step (option string)) :=
  [ standardSanitizer trim;
    notEmpty "Contact number is required";
    standardValidator (isLength 10 10) "Contact number must be 10 digits";
    standardValidator isNumeric "Contact number must contain only numbers" ].

Definition dateOfBirthChain (today : Date) : list (step (option string)) :=
  [ notEmpty "Date of birth is required";
    standardValidator isISO8601 "Please use a valid date format (YYYY-MM-DD)";
    validator (dateOfBirth_custom today) "Age must be between 5 and 120 years" ].

Definition favoriteFoodsChain : list (step (option (list string))) :=
  [ validator isArrayMin1 "Please select at least one favorite food";
    validator favoriteFoods_custom "Invalid food selection" ].

(** The validation chains of the [validateSurvey] array, in its order. *)
Definition validateSurvey (today : Date) : list middleware :=
  [ chainOn FullName fullName set_fullName fullNameChain;
    chainOn Email email set_email emailChain;
    chainOn ContactNumber contactNumber set_contactNumber contactNumberChain;
    chainOn DateOfBirth dateOfBirth keep (dateOfBirthChain today);
    chainOn FavoriteFoods favoriteFoods keep favoriteFoodsChain;
    rating RatingsEatOut ratings_eatOut "Eating out rating is required";
    rating RatingsWatchMovies ratings_watchMovies "Movies rating is required";
    rating RatingsWatchTV ratings_watchTV "TV rating is required";
    rating RatingsListenRadio ratings_listenRadio "Radio rating is required" ].

(** The chains run one after the other on the same request. *)
Fixpoint runAll (ms : list middleware) (b : body) : body * list error :=
  match ms with
  | [] => (b, [])
  | m :: k =>
      let (b1, e1) := m b in
      let (b2, e2) := runAll k b1 in
      (b2, e1 ++ e2)
  end.

(** [validationResult(req)] after the chains. *)
Definition validationResult (today : Date) (b : body) : list error :=
  snd (runAll (validateSurvey today) b).

(** The last element of the array: answer 400 with every error, or call
    [next()] ([None]). *)
Definition handleValidationErrors (errors : list error) : option response :=
  match errors with
  | [] => None
  | _ => Some (ValidationFailed (map (fun err => (path (fst err), snd err)) errors))
  end.

(** *** [surveySchema]: casting and validation on [save()] *)

Definition requiredString (v : option string) : option string :=
  match v with
  | Some s => if isEmpty s then None else Some s
  | None => None
  end.

(** A [Number] path with [min] and [max]; the cast is [Number(value)],
    taken on the integer literals, the only strings [isInt] lets through. *)
Definition requiredNumber (min max : Z) (v : option string) : option Z :=
  match v with
  | Some s =>
      match intValue s with
      | Some n => if (min <=? n) && (n <=? max) then Some n else None
      | None => None
      end
  | None => None
  end.

Definition requiredDate (v : option string) : option Date :=
  match v with Some s => newDate s | None => None end.

(** An array of enum strings; an absent array is the empty array. *)
Definition enumArray (v : option (list string)) : option (list string) :=
  match v with
  | Some foods => if forallb (includes validFoods) foods then Some foods else None
  | None => Some []
  end.

Definition surveySchema (b : body) : option Survey.t :=
  match requiredString (fullName b), requiredString (email b),
        requiredString (contactNumber b), requiredDate (dateOfBirth b),
        enumArray (favoriteFoods b),
        requiredNumber 1 5 (ratings_eatOut b), requiredNumber 1 5 (ratings_watchMovies b),
        requiredNumber 1 5 (ratings_watchTV b), requiredNumber 1 5 (ratings_listenRadio b)
  with
  | Some n, Some e, Some c, Some d, Some fs, Some r1, Some r2, Some r3, Some r4 =>
      if isLength 10 10 c then
        Some {| Survey.fullName := n; Survey.email := e; Survey.contactNumber := c;
                Survey.dateOfBirth := d; Survey.favoriteFoods := fs;
                Survey.ratings := {| Survey.eatOut := r1; Survey.watchMovies := r2;
                                     Survey.watchTV := r3; Survey.listenRadio := r4 |} |}
      else None
  | _, _, _, _, _, _, _, _, _ => None
  end.

(** *** [submitSurvey]: [new Survey(req.body)] and [save()] *)
Definition submitSurvey (b : body) (store : list Survey.t) : response * list Survey.t :=
  match surveySchema b with
  | Some doc => (Created "Survey submitted successfully", store ++ [doc])
  | None => (SaveRejected, store)
  end.

(** *** [router.post('/submit', submitLimiter, validateSurvey, submitSurvey)]

    [limited] is the decision of the rate limiter for this request. *)
Definition postSubmit (limited : bool) (today : Date) (b : body) (store : list Survey.t)
    : response * list Survey.t :=
  if limited then (TooManyRequests, store)
  else
    let (b', errors) := runAll (validateSurvey today) b in
    match handleValidationErrors errors with
    | Some r => (r, store)
    | None => submitSurvey b' store
    end.

(** The messages of the validators of one field's chain that fail on the
    submitted body. *)
Definition violations (today : Date) (f : field) (b : body) : list string :=
  match f with
  | FullName => snd (run fullNameChain (fullName b))
  | Email => snd (run emailChain (email b))
  | ContactNumber => snd (run contactNumberChain (contactNumber b))
  | DateOfBirth => snd (run (dateOfBirthChain today) (dateOfBirth b))
  | FavoriteFoods => snd (run favoriteFoodsChain (favoriteFoods b))
  | RatingsEatOut => snd (run (ratingChain "Eating out rating is required") (ratings_eatOut b))
  | RatingsWatchMovies => snd (run (ratingChain "Movies rating is required") (ratings_watchMovies b))
  | RatingsWatchTV => snd (run (ratingChain "TV rating is required") (ratings_watchTV b))
  | RatingsListenRadio => snd (run (ratingChain "Radio rating is required") (ratings_listenRadio b))
  end.

End Routes.

(** ** [getSurveyStats] *)

Record Stats : Type := {
  totalSurveys : Z;
  averageAge : string;
  oldest : Z;
  youngest : Z;
  pizzaLoversPercentage : string;
  papWorsPercentage : string;
  averageEatOutRating : string;
  averageWatchMoviesRating : string;
  averageWatchTVRating : string;
  averageListenRadioRating : string
}.

Inductive statsResponse : Type :=
| Message (message : string)
| StatsJson (stats : Stats).

(** The age computed inside [surveys.map] (lines 22-28). *)
Definition getSurveyStats_age (today : Date) (s : Survey.t) : Z :=
  let birthDate := Survey.dateOfBirth s in
  let age := getFullYear today - getFullYear birthDate in
  let monthDiff := getMonth today - getMonth birthDate in
  if (monthDiff <? 0) || ((monthDiff =? 0) && (getDate today <? getDate birthDate))
  then age - 1 else age.

(** [xs.reduce((a, b) => a + b, 0)] *)
Definition sum (xs : list Z) : Z := fold_left Z.add xs 0.

(** [Math.max(...xs)] and [Math.min(...xs)] on a list that is not empty. *)
Definition mathMax (xs : list Z) : Z := fold_left Z.max (tl xs) (hd 0 xs).
Definition mathMin (xs : list Z) : Z := fold_left Z.min (tl xs) (hd 0 xs).

(** [(total / totalSurveys).toFixed(1)] *)
Definition average (total totalSurveys : Z) : string :=
  toFixed1 (Binary64.div (Binary64.of_int total) (Binary64.of_int totalSurveys)).

(** [((count / totalSurveys) * 100).toFixed(1)] *)
Definition percentage (count totalSurveys : Z) : string :=
  toFixed1 (Binary64.mul (Binary64.div (Binary64.of_int count) (Binary64.of_int totalSurveys))
                         (Binary64.of_int 100)).

Definition countWith (food : string) (surveys : list Survey.t) : Z :=
  Z.of_nat (List.length (filter (fun s => includes (Survey.favoriteFoods s) food) surveys)).

Definition getSurveyStats (today : Date) (surveys : list Survey.t) : statsResponse :=
  if (List.length surveys =? 0)%nat then Message "No Surveys Available"
  else
    let ages := map (getSurveyStats_age today) surveys in
    let totalSurveys := Z.of_nat (List.length surveys) in
    let pizzaCount := countWith "Pizza" surveys in
    let papWorsCount := countWith "Pap and Wors" surveys in
    let rating (get : Survey.Ratings -> Z) := map (fun s => get (Survey.ratings s)) surveys in
    StatsJson
      {| totalSurveys := totalSurveys;
         averageAge := average (sum ages) totalSurveys;
         oldest := mathMax ages;
         youngest := mathMin ages;
         pizzaLoversPercentage := percentage pizzaCount totalSurveys;
         papWorsPercentage := percentage papWorsCount totalSurveys;
         averageEatOutRating := average (sum (rating Survey.eatOut)) totalSurveys;
         averageWatchMoviesRating := average (sum (rating Survey.watchMovies)) totalSurveys;
         averageWatchTVRating := average (sum (rating Survey.watchTV)) totalSurveys;
         averageListenRadioRating := average (sum (rating Survey.listenRadio)) totalSurveys |}.

(** ** The vocabulary of the specification *)










(** The fields in the order of their declaration. *)
Definition declaredFields : list field :=
  [FullName; Email; ContactNumber; DateOfBirth; FavoriteFoods;
   RatingsEatOut; RatingsWatchMovies; RatingsWatchTV; RatingsListenRadio].


(** The ages and the ratings the summary is computed from. *)
Definition agesOf (today : Date) (surveys : list Survey.t) : list Z :=
  map (getSurveyStats_age today) surveys.

Definition ratingsOf (get : Survey.Ratings -> Z) (surveys : list Survey.t) : list Z :=
  map (fun s => get (Survey.ratings s)) surveys.








(** The characters [isNumeric] lets through: digits, signs and the point. *)
Definition numericChar (c : ascii) : bool := isDigit c || isSign c || (code c =? 46)%nat.

Fixpoint allChars (p : ascii -> bool) (s : string) : bool :=
  match s with
  | EmptyString => true
  | String c r => p c && allChars p r
  end.

(** ** Sample data *)

Definition referenceDay : Date := {| getFullYear := 2025; getMonth := 5; getDate := 15 |}.

Definition bornIn (year : Z) : Date := {| getFullYear := year; getMonth := 0; getDate := 1 |}.

Definition sampleRecord (born : Z) (foods : list string) (r : Z) : Survey.t :=
  {| Survey.fullName := "Thabo Mokoena";
     Survey.email := "thabo@example.com";
     Survey.contactNumber := "0821234567";
     Survey.dateOfBirth := bornIn born;
     Survey.favoriteFoods := foods;
     Survey.ratings := {| Survey.eatOut := r; Survey.watchMovies := r;
                          Survey.watchTV := r; Survey.listenRadio := r |} |}.



(** Records aged 18, 78 and 32 on [referenceDay]. *)
Definition threeRecords : list Survey.t :=
  [ sampleRecord 2007 ["Pizza"%string] 4; sampleRecord 1947 ["Pap and Wors"%string] 2;
    sampleRecord 1993 ["Other"%string] 5 ].


(** Stand-ins for the library functions, to run the routes on sample
    requests: an address contains ["@"], a date is written [YYYY-MM-DD]. *)
Definition sampleIsEmail (s : string) : bool :=
  existsb (fun c => (code c =? 64)%nat) (list_ascii_of_string s).

Definition sampleNormalizeEmail (s : string) : string := s.

Definition sampleIsISO8601 (s : string) : bool :=
  (String.length s =? 10)%nat
  && allDigits (substring 0 4 s) && String.eqb (substring 4 1 s) "-"
  && allDigits (substring 5 2 s) && String.eqb (substring 7 1 s) "-"
  && allDigits (substring 8 2 s).

Definition sampleNewDate (s : string) : option Date :=
  if sampleIsISO8601 s
  then Some {| getFullYear := digitsValue 0 (substring 0 4 s);
               getMonth := digitsValue 0 (substring 5 2 s) - 1;
               getDate := digitsValue 0 (substring 8 2 s) |}
  else None.

Definition sampleBody (name number born : string) (foods : list string) (r : string) : body :=
  {| fullName := Some name;
     email := Some "thabo@example.com"%string;
     contactNumber := Some number;
     dateOfBirth := Some born;
     favoriteFoods := Some foods;
     ratings_eatOut := Some r;
     ratings_watchMovies := Some "3"%string;
     ratings_watchTV := Some "4"%string;
     ratings_listenRadio := Some "5"%string |}.

(** ** Calendar order *)

(** [d1] is not after [d2]: the order of (year, month, day). *)
Definition notAfter (d1 d2 : Date) : Prop :=
  getFullYear d1 < getFullYear d2 \/
  (getFullYear d1 = getFullYear d2 /\
   (getMonth d1 < getMonth d2 \/
    (getMonth d1 = getMonth d2 /\ getDate d1 <= getDate d2))).

(** The [k]-th anniversary of a date. *)
Definition birthday (k : Z) (birthDate : Date) : Date :=
  {| getFullYear := getFullYear birthDate + k;
     getMonth := getMonth birthDate;
     getDate := getDate birthDate |}.

(** * Properties *)

(** ** Rounding to nearest *)

Module Binary64Facts.
Import Binary64.



Section RoundPos.
Variables a b : Z.
Hypothesis Ha : 0 < a.
Hypothesis Hb : 0 < b.

Let s := Z.max 0 (54 + Z.log2 b - Z.log2 a).
Let A := a * 2 ^ s.
Let L := Z.log2 (A / b).
Let u := 2 ^ (L - 52).
Let m := rne A (b * u).







End RoundPos.







End Binary64Facts.

(** ** One decimal digit *)









(** ** The aggregator *)

Lemma getSurveyStats_nonempty (today : Date) (surveys : list Survey.t) :
  surveys <> [] ->
  let n := Z.of_nat (List.length surveys) in
  getSurveyStats today surveys =
  StatsJson
    {| totalSurveys := n;
       averageAge := average (sum (agesOf today surveys)) n;
       oldest := mathMax (agesOf today surveys);
       youngest := mathMin (agesOf today surveys);
       pizzaLoversPercentage := percentage (countWith "Pizza" surveys) n;
       papWorsPercentage := percentage (countWith "Pap and Wors" surveys) n;
       averageEatOutRating := average (sum (ratingsOf Survey.eatOut surveys)) n;
       averageWatchMoviesRating := average (sum (ratingsOf Survey.watchMovies surveys)) n;
       averageWatchTVRating := average (sum (ratingsOf Survey.watchTV surveys)) n;
       averageListenRadioRating := average (sum (ratingsOf Survey.listenRadio surveys)) n |}.
Proof.
  intros Hne. destruct surveys as [|s l]; [congruence|]. reflexivity.
Qed.

Lemma includes_In (xs : list string) (x : string) : includes xs x = true <-> In x xs.
Proof.
  unfold includes. rewrite existsb_exists. split.
  - intros [y [Hy E]]. apply String.eqb_eq in E. now subst.
  - intros H. exists x. split; [exact H | apply String.eqb_refl].
Qed.













(** *** The shape of the string fields *)

Lemma allDigits_uint (u : Decimal.uint) : allDigits (NilEmpty.string_of_uint u) = true.
Proof.
  induction u; cbn [NilEmpty.string_of_uint allDigits]; try reflexivity;
    rewrite IHu; reflexivity.
Qed.

Lemma decimal_shape (n : Z) :
  exists c r, decimal n = String c r /\ isDigit c = true /\ allDigits r = true.
Proof.
  unfold decimal, NilZero.string_of_uint.
  destruct (N.to_uint (Z.to_N n)) as [|u|u|u|u|u|u|u|u|u|u];
    cbn [NilEmpty.string_of_uint]; do 2 eexists;
    (split; [reflexivity|split; [reflexivity|try reflexivity; apply allDigits_uint]]).
Qed.



Lemma digit_not_minus (c : ascii) : isDigit c = true -> (code c =? 45)%nat = false.
Proof.
  unfold isDigit. intros H. apply andb_prop in H as [Lo _].
  apply Nat.leb_le in Lo. apply Nat.eqb_neq. lia.
Qed.





(** C5: on an empty record set the aggregation entry point answers with the
    message "No Surveys Available" and with no statistics summary; a record
    set that is not empty never gets that message. *)
Theorem empty_store_marker (today : Date) :
  getSurveyStats today [] = Message "No Surveys Available" /\
  (forall st, getSurveyStats today [] <> StatsJson st) /\
  (forall surveys m, surveys <> [] -> getSurveyStats today surveys <> Message m).
Proof.
  split; [reflexivity|split].
  - intros st. discriminate.
  - intros surveys m Hne. rewrite (getSurveyStats_nonempty today surveys Hne). discriminate.
Qed.

(** ** The age *)




(** ** The validator *)

Lemma chainOn_eq (V : Type) (f : field) (get : body -> V) (set : V -> body -> body)
    (steps : list (step V)) (b : body) :
  chainOn f get set steps b
  = (set (fst (run steps (get b))) b, map (pair f) (snd (run steps (get b)))).
Proof. unfold chainOn. now destruct (run steps (get b)). Qed.





Lemma declaredFields_complete (f : field) : In f declaredFields.
Proof. destruct f; cbn; tauto. Qed.

Section ValidatorFacts.

Variable isEmail : string -> bool.
Variable normalizeEmail : string -> string.
Variable isISO8601 : string -> bool.
Variable newDate : string -> option Date.

Local Abbreviation validateSurvey' := (validateSurvey isEmail normalizeEmail isISO8601 newDate).
Local Abbreviation violations' := (violations isEmail normalizeEmail isISO8601 newDate).
Local Abbreviation postSubmit' :=
  (postSubmit isEmail normalizeEmail isISO8601 newDate).
Local Abbreviation validationResult' :=
  (validationResult isEmail normalizeEmail isISO8601 newDate).

(** Every chain reads and writes its own field only: the array as a whole
    sanitizes three fields and gathers the messages field by field. *)
Lemma runAll_validateSurvey (today : Date) (b : body) :
  runAll (validateSurvey' today) b
  = ({| fullName := fst (run fullNameChain (fullName b));
        email := fst (run (emailChain isEmail normalizeEmail) (email b));
        contactNumber := fst (run contactNumberChain (contactNumber b));
        dateOfBirth := dateOfBirth b;
        favoriteFoods := favoriteFoods b;
        ratings_eatOut := ratings_eatOut b;
        ratings_watchMovies := ratings_watchMovies b;
        ratings_watchTV := ratings_watchTV b;
        ratings_listenRadio := ratings_listenRadio b |},
     flat_map (fun f => map (pair f) (violations' today f b)) declaredFields).
Proof.
  unfold validateSurvey, rating. cbn [runAll].
  repeat (rewrite chainOn_eq; cbn iota beta).
  unfold set_fullName, set_email, set_contactNumber, keep.
  cbn [fullName email contactNumber dateOfBirth favoriteFoods ratings_eatOut
       ratings_watchMovies ratings_watchTV ratings_listenRadio].
  cbn [flat_map declaredFields violations]. rewrite !app_nil_r. reflexivity.
Qed.

Lemma validationResult_eq (today : Date) (b : body) :
  validationResult' today b
  = flat_map (fun f => map (pair f) (violations' today f b)) declaredFields.
Proof. unfold validationResult. now rewrite runAll_validateSurvey. Qed.

Lemma in_validationResult (today : Date) (b : body) (f : field) (m : string) :
  In (f, m) (validationResult' today b) <-> In m (violations' today f b).
Proof.
  rewrite validationResult_eq, in_flat_map. split.
  - intros (g & _ & H). apply in_map_iff in H as (m' & E & H).
    now injection E as <- <-.
  - intros H. exists f. split; [apply declaredFields_complete|].
    apply in_map. exact H.
Qed.



Lemma no_errors_no_violations (today : Date) (b : body) :
  validationResult' today b = [] -> forall f, violations' today f b = [].
Proof.
  intros H f. destruct (violations' today f b) as [|m l] eqn:V; [reflexivity|exfalso].
  assert (I : In (f, m) (validationResult' today b))
    by (apply in_validationResult; rewrite V; now left).
  rewrite H in I. exact I.
Qed.


(** C7 (the code at the failing input): a submission whose contact number
    is "+123456789", a sign and nine digits, passes the validator and the
    schema and is stored with that contact number, which is not made of ten
    digits. *)
Theorem signed_contactNumber_is_persisted (today birthDate : Date) (store : list Survey.t) :
  isEmail "thabo@example.com" = true ->
  normalizeEmail "thabo@example.com" = "thabo@example.com"%string ->
  isISO8601 "1990-01-01" = true ->
  newDate "1990-01-01" = Some birthDate ->
  5 <= validateSurvey_age today birthDate <= 120 ->
  exists doc,
    postSubmit' false today
      (sampleBody "Thabo Mokoena" "+123456789" "1990-01-01" ["Pizza"%string] "3") store
    = (Created "Survey submitted successfully", store ++ [doc]) /\
    Survey.contactNumber doc = "+123456789"%string /\
    allDigits (Survey.contactNumber doc) = false.
Proof.
  intros He Hn Hiso Hdate Hage.
  eexists. split; [|split].
  - unfold postSubmit. rewrite runAll_validateSurvey.
    cbn [flat_map declaredFields violations sampleBody fullName email contactNumber
         dateOfBirth favoriteFoods ratings_eatOut ratings_watchMovies ratings_watchTV
         ratings_listenRadio].
    unfold emailChain, dateOfBirthChain, notEmpty, standardValidator, standardSanitizer.
    cbn [run toString snd fst].
    change (trim "thabo@example.com") with "thabo@example.com"%string.
    rewrite He, Hiso, Hn. unfold dateOfBirth_custom. rewrite Hdate.
    replace (negb ((validateSurvey_age today birthDate <? 5)
                   || (validateSurvey_age today birthDate >? 120))) with true
      by (destruct (Z.ltb_spec (validateSurvey_age today birthDate) 5),
                   (Z.gtb_spec (validateSurvey_age today birthDate) 120);
          try reflexivity; lia).
    cbn [negb isEmpty String.length Nat.eqb map app handleValidationErrors].
    change (snd (run fullNameChain (Some "Thabo Mokoena"%string))) with (@nil string).
    change (snd (run contactNumberChain (Some "+123456789"%string))) with (@nil string).
    change (snd (run favoriteFoodsChain (Some ["Pizza"%string]))) with (@nil string).
    change (snd (run (ratingChain "Eating out rating is required") (Some "3"%string)))
      with (@nil string).
    change (snd (run (ratingChain "Movies rating is required") (Some "3"%string)))
      with (@nil string).
    change (snd (run (ratingChain "TV rating is required") (Some "4"%string)))
      with (@nil string).
    change (snd (run (ratingChain "Radio rating is required") (Some "5"%string)))
      with (@nil string).
    cbn [map app handleValidationErrors].
    unfold submitSurvey, surveySchema.
    cbn [fullName email contactNumber dateOfBirth favoriteFoods ratings_eatOut
         ratings_watchMovies ratings_watchTV ratings_listenRadio requiredDate].
    rewrite Hdate.
    change (fst (run fullNameChain (Some "Thabo Mokoena"%string)))
      with (Some "Thabo Mokoena"%string).
    change (fst (run contactNumberChain (Some "+123456789"%string)))
      with (Some "+123456789"%string).
    reflexivity.
  - reflexivity.
  - reflexivity.
Qed.

End ValidatorFacts.

(** C2 (the code at the failing input): the contact number "+123456789" has
    ten characters, one of which is not a digit, and its chain reports no
    error; the same holds for "12345.6789". *)
Theorem contactNumber_sign_accepted :
  String.length "+123456789" = 10%nat /\
  allDigits "+123456789" = false /\
  run contactNumberChain (Some "+123456789"%string) = (Some "+123456789"%string, []) /\
  allDigits "12345.6789" = false /\
  run contactNumberChain (Some "12345.6789"%string) = (Some "12345.6789"%string, []).
Proof. repeat split. Qed.



Lemma signed_contactNumber_is_persisted_witness :
  exists doc,
    postSubmit sampleIsEmail sampleNormalizeEmail sampleIsISO8601 sampleNewDate
      false referenceDay
      (sampleBody "Thabo Mokoena" "+123456789" "1990-01-01" ["Pizza"%string] "3") []
    = (Created "Survey submitted successfully", [] ++ [doc]) /\
    Survey.contactNumber doc = "+123456789"%string /\
    allDigits (Survey.contactNumber doc) = false.
Proof.
  apply (signed_contactNumber_is_persisted
           sampleIsEmail sampleNormalizeEmail sampleIsISO8601 sampleNewDate
           referenceDay (bornIn 1990) []); try reflexivity.
  cbv. split; discriminate.
Defined.

(** *** The contact number *)

Lemma digit_not_space (c : ascii) : isDigit c = true -> isWhitespace c = false.
Proof.
  unfold isDigit, isWhitespace. intros H. apply andb_prop in H as [Lo Hi].
  apply Nat.leb_le in Lo, Hi.
  destruct (Nat.leb_spec 9 (code c)), (Nat.leb_spec (code c) 13),
           (Nat.eqb_spec (code c) 32), (Nat.eqb_spec (code c) 160);
    cbn [andb orb]; try reflexivity; lia.
Qed.

Lemma digit_not_sign (c : ascii) : isDigit c = true -> isSign c = false.
Proof.
  unfold isDigit, isSign. intros H. apply andb_prop in H as [Lo _].
  apply Nat.leb_le in Lo.
  destruct (Nat.eqb_spec (code c) 43), (Nat.eqb_spec (code c) 45);
    cbn [orb]; try reflexivity; lia.
Qed.

Lemma rtrim_digits (s : string) : allDigits s = true -> rtrim s = s.
Proof.
  induction s as [|c r IH]; [reflexivity|]. cbn [allDigits rtrim]. intros H.
  apply andb_prop in H as [Hc Hr]. rewrite (IH Hr).
  destruct r; [now rewrite (digit_not_space c Hc)|reflexivity].
Qed.

Lemma trim_digits (s : string) : allDigits s = true -> trim s = s.
Proof.
  intros H. unfold trim.
  assert (L : ltrim s = s).
  { destruct s as [|c r]; [reflexivity|]. cbn [allDigits] in H.
    apply andb_prop in H as [Hc _]. cbn [ltrim]. now rewrite (digit_not_space c Hc). }
  rewrite L. apply rtrim_digits, H.
Qed.

Lemma numericBody_digits (s : string) :
  allDigits s = true -> s <> EmptyString -> numericBody s = true.
Proof.
  induction s as [|c r IH]; [congruence|]. cbn [allDigits numericBody]. intros H _.
  apply andb_prop in H as [Hc Hr]. rewrite Hc.
  destruct r; [reflexivity|]. apply IH; [exact Hr|discriminate].
Qed.

(** Ten decimal digits, whatever the leading ones, are accepted as they are. *)
Lemma contactNumber_ten_digits_accepted (s : string) :
  String.length s = 10%nat -> allDigits s = true ->
  run contactNumberChain (Some s) = (Some s, []).
Proof.
  intros L D. unfold contactNumberChain, notEmpty, standardValidator, standardSanitizer.
  cbn [run toString]. rewrite (trim_digits s D).
  unfold isEmpty, isLength. rewrite L. cbn [Nat.eqb Nat.leb negb andb].
  assert (N : isNumeric s = true).
  { unfold isNumeric. destruct s as [|c r]; [discriminate L|].
    cbn [allDigits] in D. apply andb_prop in D as [Hc Hr].
    cbn [dropSign]. rewrite (digit_not_sign c Hc).
    apply numericBody_digits; [cbn [allDigits]; now rewrite Hc, Hr|discriminate]. }
  rewrite N. reflexivity.
Qed.

(** A value whose trimmed form does not have ten characters is rejected. *)
Lemma contactNumber_wrong_length_rejected (v : option string) :
  String.length (trim (toString v)) <> 10%nat ->
  In "Contact number must be 10 digits"%string (snd (run contactNumberChain v)).
Proof.
  intros L. unfold contactNumberChain, notEmpty, standardValidator, standardSanitizer.
  cbn [run toString snd].
  assert (F : isLength 10 10 (trim (toString v)) = false).
  { unfold isLength.
    destruct (Nat.leb_spec 10 (String.length (trim (toString v)))),
             (Nat.leb_spec (String.length (trim (toString v))) 10);
      cbn [andb]; try reflexivity; lia. }
  rewrite F.
  destruct (negb (isEmpty (trim (toString v)))), (isNumeric (trim (toString v)));
    cbn [In]; tauto.
Qed.

Lemma allDigits_numericChars (s : string) :
  allDigits s = true -> allChars numericChar s = true.
Proof.
  induction s as [|c r IH]; [reflexivity|]. cbn [allDigits allChars]. intros H.
  apply andb_prop in H as [Hc Hr]. unfold numericChar at 1. rewrite Hc. cbn [orb andb].
  apply IH, Hr.
Qed.

Lemma numericBody_chars (s : string) :
  numericBody s = true -> allChars numericChar s = true.
Proof.
  induction s as [|c r IH]; [reflexivity|]. cbn [numericBody allChars].
  destruct (isDigit c) eqn:Hc.
  - intros H. unfold numericChar at 1. rewrite Hc. cbn [orb andb].
    destruct r; [reflexivity|apply IH, H].
  - intros H. apply andb_prop in H as [Hp Hd]. unfold numericChar at 1.
    rewrite Hp, Bool.orb_true_r. cbn [andb].
    unfold digits1 in Hd. apply andb_prop in Hd as [_ Hd].
    apply allDigits_numericChars, Hd.
Qed.

(** A value whose trimmed form has a character other than a digit, a sign or
    a point is rejected. *)
Lemma contactNumber_foreign_char_rejected (v : option string) :
  allChars numericChar (trim (toString v)) = false ->
  In "Contact number must contain only numbers"%string (snd (run contactNumberChain v)).
Proof.
  intros F. unfold contactNumberChain, notEmpty, standardValidator, standardSanitizer.
  cbn [run toString snd].
  assert (N : isNumeric (trim (toString v)) = false).
  { destruct (isNumeric (trim (toString v))) eqn:E; [|reflexivity].
    unfold isNumeric in E. apply numericBody_chars in E.
    destruct (trim (toString v)) as [|c r]; [discriminate F|].
    cbn [dropSign] in E. cbn [allChars] in F.
    destruct (isSign c) eqn:S.
    - unfold numericChar at 1 in F. rewrite S, Bool.orb_true_r in F.
      cbn [orb andb] in F. congruence.
    - cbn [allChars] in E. congruence. }
  rewrite N.
  destruct (negb (isEmpty (trim (toString v)))), (isLength 10 10 (trim (toString v)));
    cbn [In]; tauto.
Qed.

(** ** The rounding model against the prover's binary64 numbers *)

(** On the quotients and products of the examples, and on every pair of
    integers from 1 to 60, [Binary64] computes the value the prover's
    hardware-backed floating-point numbers have. *)
Lemma binary64_agrees_with_hardware :
  sameValue (hardwareQuotient 128 3) (Binary64.div (Binary64.of_int 128) (Binary64.of_int 3)) = true /\
  sameValue (hardwareQuotient 29 20) (Binary64.div (Binary64.of_int 29) (Binary64.of_int 20)) = true /\
  sameValue (hardwarePercentage 23 80)
    (Binary64.mul (Binary64.div (Binary64.of_int 23) (Binary64.of_int 80)) (Binary64.of_int 100)) = true /\
  forallb (fun a => forallb (fun b =>
      sameValue (hardwareQuotient a b) (Binary64.div (Binary64.of_int a) (Binary64.of_int b))
      && sameValue (hardwarePercentage a b)
           (Binary64.mul (Binary64.div (Binary64.of_int a) (Binary64.of_int b)) (Binary64.of_int 100)))
    (map Z.of_nat (seq 1 60))) (map Z.of_nat (seq 1 60)) = true.
Proof. repeat split; vm_compute; reflexivity. Qed.

(** * Further properties of the code *)

(** ** The age rule and the calendar *)

(** X1: the age computed by the validator is at least [k] exactly when the
    [k]-th birthday is not after the reference date. *)
Theorem age_counts_birthdays (today birthDate : Date) (k : Z) :
  k <= validateSurvey_age today birthDate <-> notAfter (birthday k birthDate) today.
Proof.
  unfold validateSurvey_age, notAfter, birthday. cbn [getFullYear getMonth getDate].
  destruct (Z.ltb_spec (getMonth today - getMonth birthDate) 0),
           (Z.eqb_spec (getMonth today - getMonth birthDate) 0),
           (Z.ltb_spec (getDate today) (getDate birthDate));
    cbn [orb andb]; lia.
Qed.

(** X2: a date of birth that parses passes the custom validator exactly when
    the fifth birthday is not after the reference date and the 121st birthday
    is. *)
Theorem accepted_birth_dates (newDate : string -> option Date) (today birthDate : Date)
    (s : string) :
  newDate s = Some birthDate ->
  dateOfBirth_custom newDate today (Some s) = true
  <-> notAfter (birthday 5 birthDate) today /\ ~ notAfter (birthday 121 birthDate) today.
Proof.
  intros Hd. unfold dateOfBirth_custom. rewrite Hd.
  rewrite <- !age_counts_birthdays.
  destruct (Z.ltb_spec (validateSurvey_age today birthDate) 5),
           (Z.gtb_spec (validateSurvey_age today birthDate) 120);
    cbn [orb negb]; split; intros; try discriminate; try reflexivity; lia.
Qed.

Lemma accepted_birth_dates_witness :
  dateOfBirth_custom sampleNewDate referenceDay (Some "2020-06-15"%string) = true
  <-> notAfter (birthday 5 {| getFullYear := 2020; getMonth := 5; getDate := 15 |}) referenceDay
      /\ ~ notAfter (birthday 121 {| getFullYear := 2020; getMonth := 5; getDate := 15 |})
             referenceDay.
Proof.
  apply (accepted_birth_dates sampleNewDate referenceDay
           {| getFullYear := 2020; getMonth := 5; getDate := 15 |} "2020-06-15").
  reflexivity.
Defined.

(** ** Oldest and youngest *)

Lemma fold_max_spec (l : list Z) (a : Z) :
  In (fold_left Z.max l a) (a :: l) /\ Forall (fun x => x <= fold_left Z.max l a) (a :: l).
Proof.
  revert a. induction l as [|x l IH]; intros a; cbn [fold_left].
  - split; [now left|]. constructor; [lia|constructor].
  - destruct (IH (Z.max a x)) as [I F]. split.
    + destruct I as [E|I]; [|right; right; exact I].
      rewrite <- E. destruct (Z.max_spec a x) as [[_ ->]|[_ ->]]; [right|]; now left.
    + inversion F as [|? ? Hm Hl]; subst.
      constructor; [lia|constructor; [lia|exact Hl]].
Qed.

Lemma fold_min_spec (l : list Z) (a : Z) :
  In (fold_left Z.min l a) (a :: l) /\ Forall (fun x => fold_left Z.min l a <= x) (a :: l).
Proof.
  revert a. induction l as [|x l IH]; intros a; cbn [fold_left].
  - split; [now left|]. constructor; [lia|constructor].
  - destruct (IH (Z.min a x)) as [I F]. split.
    + destruct I as [E|I]; [|right; right; exact I].
      rewrite <- E. destruct (Z.min_spec a x) as [[_ ->]|[_ ->]]; [|right]; now left.
    + inversion F as [|? ? Hm Hl]; subst.
      constructor; [lia|constructor; [lia|exact Hl]].
Qed.

Lemma mathMax_spec (xs : list Z) :
  xs <> [] -> In (mathMax xs) xs /\ Forall (fun x => x <= mathMax xs) xs.
Proof. destruct xs as [|a l]; [congruence|]. intros _. apply fold_max_spec. Qed.

Lemma mathMin_spec (xs : list Z) :
  xs <> [] -> In (mathMin xs) xs /\ Forall (fun x => mathMin xs <= x) xs.
Proof. destruct xs as [|a l]; [congruence|]. intros _. apply fold_min_spec. Qed.



(** ** The order of the records *)

Lemma fold_add_perm (l l' : list Z) :
  Permutation l l' -> forall acc, fold_left Z.add l acc = fold_left Z.add l' acc.
Proof.
  induction 1 as [|x l l' _ IH|x y l|l l' l'' _ IH1 _ IH2]; intros acc; cbn [fold_left].
  - reflexivity.
  - apply IH.
  - f_equal. lia.
  - now rewrite IH1.
Qed.

Lemma sum_perm (l l' : list Z) : Permutation l l' -> sum l = sum l'.
Proof. intros P. apply fold_add_perm, P. Qed.

Lemma mathMax_perm (l l' : list Z) : Permutation l l' -> l <> [] -> mathMax l = mathMax l'.
Proof.
  intros P Hne.
  assert (Hne' : l' <> []) by (intros ->; apply Permutation_sym, Permutation_nil in P; congruence).
  destruct (mathMax_spec l Hne) as [I F], (mathMax_spec l' Hne') as [I' F'].
  rewrite Forall_forall in F, F'.
  pose proof (F' _ (Permutation_in _ P I)).
  pose proof (F _ (Permutation_in _ (Permutation_sym P) I')). lia.
Qed.

Lemma mathMin_perm (l l' : list Z) : Permutation l l' -> l <> [] -> mathMin l = mathMin l'.
Proof.
  intros P Hne.
  assert (Hne' : l' <> []) by (intros ->; apply Permutation_sym, Permutation_nil in P; congruence).
  destruct (mathMin_spec l Hne) as [I F], (mathMin_spec l' Hne') as [I' F'].
  rewrite Forall_forall in F, F'.
  pose proof (F' _ (Permutation_in _ P I)).
  pose proof (F _ (Permutation_in _ (Permutation_sym P) I')). lia.
Qed.

Lemma filter_perm (A : Type) (p : A -> bool) (l l' : list A) :
  Permutation l l' -> Permutation (filter p l) (filter p l').
Proof.
  induction 1 as [|x l l' _ IH|x y l|l l' l'' _ IH1 _ IH2]; cbn [filter].
  - constructor.
  - destruct (p x); [constructor|]; exact IH.
  - destruct (p x), (p y); try apply Permutation_refl. constructor.
  - eapply Permutation_trans; eassumption.
Qed.

Lemma countWith_perm (food : string) (l l' : list Survey.t) :
  Permutation l l' -> countWith food l = countWith food l'.
Proof.
  intros P. unfold countWith. f_equal. apply Permutation_length, filter_perm, P.
Qed.

(** X4: the summary does not depend on the order in which the store returns
    the records. *)
Theorem stats_ignore_record_order (today : Date) (surveys surveys' : list Survey.t) :
  Permutation surveys surveys' ->
  getSurveyStats today surveys = getSurveyStats today surveys'.
Proof.
  intros P. destruct surveys as [|s l].
  - apply Permutation_nil in P. now subst.
  - assert (Hne : s :: l <> []) by discriminate.
    assert (Hne' : surveys' <> [])
      by (intros ->; apply Permutation_sym, Permutation_nil in P; congruence).
    rewrite (getSurveyStats_nonempty today _ Hne), (getSurveyStats_nonempty today _ Hne').
    cbv zeta.
    assert (Pa : Permutation (agesOf today (s :: l)) (agesOf today surveys'))
      by (apply Permutation_map, P).
    assert (Pr : forall get, Permutation (ratingsOf get (s :: l)) (ratingsOf get surveys'))
      by (intros get; apply Permutation_map, P).
    assert (Ha : agesOf today (s :: l) <> []) by discriminate.
    rewrite (Permutation_length P), (sum_perm _ _ Pa), (mathMax_perm _ _ Pa Ha),
      (mathMin_perm _ _ Pa Ha), (countWith_perm "Pizza" _ _ P),
      (countWith_perm "Pap and Wors" _ _ P), (sum_perm _ _ (Pr Survey.eatOut)),
      (sum_perm _ _ (Pr Survey.watchMovies)), (sum_perm _ _ (Pr Survey.watchTV)),
      (sum_perm _ _ (Pr Survey.listenRadio)).
    reflexivity.
Qed.

Lemma stats_ignore_record_order_witness :
  getSurveyStats referenceDay threeRecords = getSurveyStats referenceDay (rev threeRecords).
Proof.
  apply (stats_ignore_record_order referenceDay threeRecords (rev threeRecords)).
  apply Permutation_rev.
Defined.

(** ** Quotients that are whole numbers *)










(** ** The range of the averages and the percentages *)











(** ** The submission path *)

Section SubmissionFacts.

Variable isEmail : string -> bool.
Variable normalizeEmail : string -> string.
Variable isISO8601 : string -> bool.
Variable newDate : string -> option Date.

Local Abbreviation violations'' := (violations isEmail normalizeEmail isISO8601 newDate).
Local Abbreviation postSubmit'' := (postSubmit isEmail normalizeEmail isISO8601 newDate).
Local Abbreviation validationResult'' :=
  (validationResult isEmail normalizeEmail isISO8601 newDate).

(** X9: whatever the request, the route either answers 201 and appends
    exactly one record to the store, or gives another answer and leaves the
    store as it was; it never removes, replaces or reorders stored records. *)
Theorem store_grows_only_with_created (limited : bool) (today : Date) (b : body)
    (store : list Survey.t) :
  match postSubmit'' limited today b store with
  | (Created m, store') =>
      m = "Survey submitted successfully"%string /\ exists doc, store' = store ++ [doc]
  | (_, store') => store' = store
  end.
Proof.
  unfold postSubmit. destruct limited; [reflexivity|].
  destruct (runAll _ b) as [b' errors].
  destruct errors as [|e l]; cbn [handleValidationErrors]; [|reflexivity].
  unfold submitSurvey. destruct (surveySchema newDate b') as [doc|]; [|reflexivity].
  split; [reflexivity|]. now exists doc.
Qed.




(** X12: a body without validation errors whose date of birth parses (and
    whose normalised address is not empty) is stored, and the stored record
    holds the trimmed name and contact number, the normalised trimmed
    address, the parsed date, the submitted foods and the numbers the four
    ratings denote. *)
Theorem valid_body_is_stored_sanitized (today : Date) (b : body) (s : string)
    (birthDate : Date) (store : list Survey.t) :
  validationResult'' today b = [] ->
  dateOfBirth b = Some s ->
  newDate s = Some birthDate ->
  isEmpty (normalizeEmail (trim (toString (email b)))) = false ->
  exists doc,
    postSubmit'' false today b store
    = (Created "Survey submitted successfully", store ++ [doc]) /\
    Survey.fullName doc = trim (toString (fullName b)) /\
    Survey.email doc = normalizeEmail (trim (toString (email b))) /\
    Survey.contactNumber doc = trim (toString (contactNumber b)) /\
    Survey.dateOfBirth doc = birthDate /\
    favoriteFoods b = Some (Survey.favoriteFoods doc) /\
    intValue (toString (ratings_eatOut b)) = Some (Survey.eatOut (Survey.ratings doc)) /\
    intValue (toString (ratings_watchMovies b)) = Some (Survey.watchMovies (Survey.ratings doc)) /\
    intValue (toString (ratings_watchTV b)) = Some (Survey.watchTV (Survey.ratings doc)) /\
    intValue (toString (ratings_listenRadio b)) = Some (Survey.listenRadio (Survey.ratings doc)).
Proof.
  intros V Hd Hdate Hmail.
  pose proof (no_errors_no_violations isEmail normalizeEmail isISO8601 newDate today b V) as NV.
  pose proof (NV FullName) as V1. pose proof (NV ContactNumber) as V3.
  pose proof (NV FavoriteFoods) as V5.
  pose proof (NV RatingsEatOut) as V6. pose proof (NV RatingsWatchMovies) as V7.
  pose proof (NV RatingsWatchTV) as V8. pose proof (NV RatingsListenRadio) as V9.
  unfold violations, fullNameChain, contactNumberChain, favoriteFoodsChain, ratingChain,
    notEmpty, standardValidator, standardSanitizer in V1, V3, V5, V6, V7, V8, V9.
  cbn [run snd fst toString] in V1, V3, V5, V6, V7, V8, V9.
  unfold postSubmit. rewrite runAll_validateSurvey. cbn iota beta.
  rewrite <- validationResult_eq, V. cbn [handleValidationErrors].
  unfold submitSurvey, surveySchema.
  cbn [fullName email contactNumber dateOfBirth favoriteFoods ratings_eatOut
       ratings_watchMovies ratings_watchTV ratings_listenRadio].
  unfold fullNameChain, emailChain, contactNumberChain, notEmpty, standardValidator,
    standardSanitizer.
  cbn [run snd fst toString].
  set (name := trim (toString (fullName b))) in *.
  set (number := trim (toString (contactNumber b))) in *.
  destruct (isEmpty name) eqn:E1; [discriminate V1|].
  destruct (isEmpty number) eqn:E3; [discriminate V3|].
  destruct (isLength 10 10 number) eqn:L3; [|discriminate V3].
  cbn [requiredString]. rewrite E1, E3, Hmail, Hd. cbn [requiredDate]. rewrite Hdate.
  destruct (isArrayMin1 (favoriteFoods b)) eqn:A5; [|discriminate V5].
  destruct (favoriteFoods_custom (favoriteFoods b)) eqn:C5; [|discriminate V5].
  destruct (favoriteFoods b) as [foods|]; [|discriminate A5].
  cbn [favoriteFoods_custom enumArray] in *. rewrite C5.
  assert (R : forall v msg,
             (if negb (isEmpty (toString v))
              then if isInt 1 5 (toString v) then []
                   else ["Rating must be between 1-5"%string]
              else msg :: (if isInt 1 5 (toString v) then []
                           else ["Rating must be between 1-5"%string])) = [] ->
             exists n, intValue (toString v) = Some n /\ requiredNumber 1 5 v = Some n).
  { intros v msg H.
    destruct (negb (isEmpty (toString v))) eqn:Ne; [|discriminate H].
    destruct (isInt 1 5 (toString v)) eqn:I; [|discriminate H].
    unfold isInt in I. unfold requiredNumber.
    destruct v as [t|]; [|discriminate Ne]. cbn [toString] in *.
    destruct (intValue t) as [n|]; [|discriminate I].
    exists n. rewrite I. split; reflexivity. }
  destruct (R _ _ V6) as (r1 & I1 & ->). destruct (R _ _ V7) as (r2 & I2 & ->).
  destruct (R _ _ V8) as (r3 & I3 & ->). destruct (R _ _ V9) as (r4 & I4 & ->).
  rewrite L3. eexists. split; [reflexivity|].
  cbn [Survey.fullName Survey.email Survey.contactNumber Survey.dateOfBirth
       Survey.favoriteFoods Survey.ratings Survey.eatOut Survey.watchMovies
       Survey.watchTV Survey.listenRadio].
  repeat split; assumption.
Qed.


End SubmissionFacts.



Lemma valid_body_is_stored_sanitized_witness :
  exists doc,
    postSubmit sampleIsEmail sampleNormalizeEmail sampleIsISO8601 sampleNewDate false
      referenceDay
      (sampleBody "  Thabo Mokoena " " 0821234567" "1990-01-01" ["Pizza"%string] "3") []
    = (Created "Survey submitted successfully", [] ++ [doc]) /\
    Survey.fullName doc = "Thabo Mokoena"%string /\
    Survey.contactNumber doc = "0821234567"%string /\
    Survey.eatOut (Survey.ratings doc) = 3.
Proof.
  destruct (valid_body_is_stored_sanitized sampleIsEmail sampleNormalizeEmail sampleIsISO8601
              sampleNewDate referenceDay
              (sampleBody "  Thabo Mokoena " " 0821234567" "1990-01-01" ["Pizza"%string] "3")
              "1990-01-01" (bornIn 1990) [] eq_refl eq_refl eq_refl eq_refl)
    as (doc & E & N & _ & C & _ & _ & R & _).
  exists doc. split; [exact E|]. split; [exact N|]. split; [exact C|].
  cbn in R. now injection R as <-.
Defined.


(** ** The chains of the single fields *)

Lemma ltrim_padding (ws s : string) :
  allChars isWhitespace ws = true -> ltrim (ws ++ s) = ltrim s.
Proof.
  induction ws as [|c r IH]; [reflexivity|]. cbn [allChars append ltrim]. intros H.
  apply andb_prop in H as [Hc Hr]. rewrite Hc. apply IH, Hr.
Qed.

Lemma rtrim_whitespace (ws : string) : allChars isWhitespace ws = true -> rtrim ws = EmptyString.
Proof.
  induction ws as [|c r IH]; [reflexivity|]. cbn [allChars rtrim]. intros H.
  apply andb_prop in H as [Hc Hr]. now rewrite (IH Hr), Hc.
Qed.

Lemma rtrim_padding (s ws : string) :
  allDigits s = true -> s <> EmptyString -> allChars isWhitespace ws = true ->
  rtrim (s ++ ws) = s.
Proof.
  intros D Hne W. induction s as [|c r IH]; [congruence|].
  cbn [allDigits] in D. apply andb_prop in D as [Hc Hr]. cbn [append rtrim].
  destruct r as [|c' r'].
  - cbn [append]. now rewrite (rtrim_whitespace ws W), (digit_not_space c Hc).
  - rewrite (IH Hr) by discriminate. reflexivity.
Qed.

Lemma trim_padding (ws s ws' : string) :
  allChars isWhitespace ws = true -> allChars isWhitespace ws' = true ->
  allDigits s = true -> s <> EmptyString ->
  trim (ws ++ s ++ ws') = s.
Proof.
  intros W W' D Hne. unfold trim. rewrite (ltrim_padding ws _ W).
  assert (L : ltrim (s ++ ws') = (s ++ ws')%string).
  { destruct s as [|c r]; [congruence|]. cbn [allDigits] in D.
    apply andb_prop in D as [Hc _]. cbn [append ltrim]. now rewrite (digit_not_space c Hc). }
  rewrite L. apply rtrim_padding; assumption.
Qed.

(** X14: a contact number of ten decimal digits, whatever its leading zeros
    and with any white space around it, raises no error, and the body keeps
    the ten digits without the white space. *)
Theorem padded_contactNumber_accepted (ws s ws' : string) :
  allChars isWhitespace ws = true ->
  allChars isWhitespace ws' = true ->
  String.length s = 10%nat ->
  allDigits s = true ->
  run contactNumberChain (Some (ws ++ s ++ ws')%string) = (Some s, []).
Proof.
  intros W W' L D.
  assert (Hne : s <> EmptyString) by (intros ->; discriminate L).
  pose proof (contactNumber_ten_digits_accepted s L D) as A.
  unfold contactNumberChain, notEmpty, standardValidator, standardSanitizer in *.
  cbn [run toString] in *. rewrite (trim_padding ws s ws' W W' D Hne).
  rewrite (trim_digits s D) in A. exact A.
Qed.

Lemma padded_contactNumber_accepted_witness :
  run contactNumberChain (Some ("  " ++ "0821234567" ++ " ")%string)
  = (Some "0821234567"%string, []).
Proof.
  apply (padded_contactNumber_accepted "  " "0821234567" " "); reflexivity.
Defined.

(** X15: a contact number whose trimmed form does not have exactly ten
    characters gets the message "Contact number must be 10 digits". *)
Theorem contactNumber_length_is_checked (v : option string) :
  String.length (trim (toString v)) <> 10%nat ->
  In "Contact number must be 10 digits"%string (snd (run contactNumberChain v)).
Proof. apply contactNumber_wrong_length_rejected. Qed.

Lemma contactNumber_length_is_checked_witness :
  In "Contact number must be 10 digits"%string
     (snd (run contactNumberChain (Some "082123456"%string))).
Proof.
  apply (contactNumber_length_is_checked (Some "082123456"%string)). discriminate.
Defined.

(** X16: a contact number whose trimmed form has a character other than a
    decimal digit, a sign or a point (a letter, a space inside the number)
    gets the message "Contact number must contain only numbers". *)
Theorem contactNumber_letters_are_rejected (v : option string) :
  allChars numericChar (trim (toString v)) = false ->
  In "Contact number must contain only numbers"%string (snd (run contactNumberChain v)).
Proof. apply contactNumber_foreign_char_rejected. Qed.

Lemma contactNumber_letters_are_rejected_witness :
  In "Contact number must contain only numbers"%string
     (snd (run contactNumberChain (Some "082 123 45"%string))).
Proof.
  apply (contactNumber_letters_are_rejected (Some "082 123 45"%string)). reflexivity.
Defined.

(** X17: no chain stops at its first failure.  A name or a contact number
    that is absent or blank gets every message of its chain, and so does a
    rating that is absent or empty. *)
Theorem blank_fields_get_every_message (v w : option string) (required : string) :
  trim (toString v) = EmptyString ->
  toString w = EmptyString ->
  snd (run fullNameChain v)
  = ["Full name is required"; "Name must be between 2-50 characters"]%string /\
  snd (run contactNumberChain v)
  = ["Contact number is required"; "Contact number must be 10 digits";
     "Contact number must contain only numbers"]%string /\
  snd (run (ratingChain required) w) = [required; "Rating must be between 1-5"%string].
Proof.
  intros Hv Hw.
  unfold fullNameChain, contactNumberChain, ratingChain, notEmpty, standardValidator,
    standardSanitizer.
  cbn [run toString snd]. rewrite Hv, Hw. repeat split.
Qed.

Lemma blank_fields_get_every_message_witness :
  snd (run fullNameChain (Some "   "%string))
  = ["Full name is required"; "Name must be between 2-50 characters"]%string /\
  snd (run contactNumberChain (Some "   "%string))
  = ["Contact number is required"; "Contact number must be 10 digits";
     "Contact number must contain only numbers"]%string /\
  snd (run (ratingChain "TV rating is required") None)
  = ["TV rating is required"; "Rating must be between 1-5"]%string.
Proof.
  apply (blank_fields_get_every_message (Some "   "%string) None); reflexivity.
Defined.

(** X18: the food chain reports nothing exactly for a non-empty array all of
    whose elements are in the vocabulary, so repeated elements and any order
    are accepted; an empty array gets the first message only and a value that
    is not an array gets both. *)
Theorem favoriteFoods_accepted_iff :
  (forall v,
     snd (run favoriteFoodsChain v) = []
     <-> exists foods, v = Some foods /\ foods <> [] /\
                       Forall (fun food => In food validFoods) foods) /\
  snd (run favoriteFoodsChain (Some [])) = ["Please select at least one favorite food"%string] /\
  snd (run favoriteFoodsChain None)
  = ["Please select at least one favorite food"; "Invalid food selection"]%string.
Proof.
  split; [|split; reflexivity].
  intros v. unfold favoriteFoodsChain. cbn [run snd]. split.
  - intros H. destruct v as [foods|]; [|discriminate H].
    exists foods. split; [reflexivity|].
    destruct (isArrayMin1 (Some foods)) eqn:A; [|destruct (favoriteFoods_custom (Some foods)); discriminate H].
    destruct (favoriteFoods_custom (Some foods)) eqn:C; [|discriminate H].
    split.
    + intros ->. discriminate A.
    + cbn [favoriteFoods_custom] in C. rewrite forallb_forall in C.
      apply Forall_forall. intros food Hin. apply includes_In, C, Hin.
  - intros (foods & -> & Hne & Hall).
    assert (A : isArrayMin1 (Some foods) = true)
      by (destruct foods; [congruence|reflexivity]).
    assert (C : favoriteFoods_custom (Some foods) = true).
    { cbn [favoriteFoods_custom]. apply forallb_forall. intros food Hin.
      rewrite Forall_forall in Hall. apply includes_In, Hall, Hin. }
    now rewrite A, C.
Qed.

Lemma rtrim_cons (c : ascii) (r : string) :
  rtrim (String c r)
  = match rtrim r with
    | EmptyString => if isWhitespace c then EmptyString else String c EmptyString
    | r' => String c r'
    end.
Proof. reflexivity. Qed.

Lemma rtrim_idempotent (s : string) : rtrim (rtrim s) = rtrim s.
Proof.
  induction s as [|c r IH]; [reflexivity|]. rewrite rtrim_cons.
  destruct (rtrim r) as [|c' r'] eqn:E.
  - destruct (isWhitespace c) eqn:W; [reflexivity|]. rewrite rtrim_cons. cbn [rtrim].
    now rewrite W.
  - rewrite rtrim_cons, IH. reflexivity.
Qed.

Lemma ltrim_head (s : string) :
  match ltrim s with
  | String c _ => isWhitespace c = false
  | EmptyString => True
  end.
Proof.
  induction s as [|c r IH]; [exact I|]. cbn [ltrim].
  destruct (isWhitespace c) eqn:W; [exact IH|exact W].
Qed.

Lemma trim_idempotent (s : string) : trim (trim s) = trim s.
Proof.
  unfold trim. pose proof (ltrim_head s) as H.
  destruct (ltrim s) as [|c r]; [reflexivity|].
  assert (L : ltrim (rtrim (String c r)) = rtrim (String c r)).
  { rewrite rtrim_cons. destruct (rtrim r); rewrite ?H; cbn [ltrim]; now rewrite H. }
  rewrite L. apply rtrim_idempotent.
Qed.

(** X19: sanitizing is idempotent: running the chain of the name, or of the
    contact number, on the value it has already sanitized gives the same
    value and the same messages. *)
Theorem sanitized_values_are_stable (v : option string) :
  run fullNameChain (fst (run fullNameChain v)) = run fullNameChain v /\
  run contactNumberChain (fst (run contactNumberChain v)) = run contactNumberChain v.
Proof.
  unfold fullNameChain, contactNumberChain, notEmpty, standardValidator, standardSanitizer.
  cbn [run toString fst]. rewrite !trim_idempotent. split; reflexivity.
Qed.

(** *** Ratings given as numbers *)

Lemma digitsValue_of_uint_acc (u : Decimal.uint) (acc : positive) :
  digitsValue (Zpos acc) (NilEmpty.string_of_uint u) = Zpos (Pos.of_uint_acc u acc).
Proof.
  revert acc. induction u; intros acc;
    cbn [NilEmpty.string_of_uint digitsValue Pos.of_uint_acc]; try reflexivity;
    rewrite <- IHu; f_equal;
    match goal with
    | |- context [Z.of_nat (code ?c)] =>
        let v := eval cbv in (Z.of_nat (code c)) in change (Z.of_nat (code c)) with v
    end; lia.
Qed.

Lemma digitsValue_of_uint (u : Decimal.uint) :
  digitsValue 0 (NilEmpty.string_of_uint u) = Z.of_N (Pos.of_uint u).
Proof.
  induction u; cbn [NilEmpty.string_of_uint digitsValue Pos.of_uint]; try reflexivity;
    try exact IHu;
    match goal with
    | |- digitsValue ?a _ = _ =>
        let p := eval cbv in a in change a with p
    end; apply digitsValue_of_uint_acc.
Qed.

(** Reading back the decimal writing of a natural number. *)
Lemma intValue_decimal (n : Z) : 0 <= n -> intValue (decimal n) = Some n.
Proof.
  intros Hn. destruct (decimal_shape n) as (c & r & E & Hc & Hr).
  assert (V : digitsValue 0 (decimal n) = n).
  { unfold decimal, NilZero.string_of_uint in *.
    pose proof (DecimalN.Unsigned.of_to (Z.to_N n)) as OT.
    destruct (N.to_uint (Z.to_N n)) eqn:U;
      try (rewrite digitsValue_of_uint; unfold N.of_uint in OT; rewrite OT; lia).
    cbn in OT. cbn. lia. }
  unfold intValue. rewrite E in *. cbn [dropSign].
  rewrite (digit_not_sign c Hc). unfold digits1. cbn [isEmpty String.length Nat.eqb negb allDigits].
  rewrite Hc, Hr. cbn [andb]. rewrite (digit_not_minus c Hc). now rewrite V.
Qed.

(** X20: a rating sent as the number [n] (not negative) raises no error
    exactly when [1 <= n <= 5], raises the range message alone otherwise, and
    the schema casts an accepted one back to [n]. *)
Theorem numeric_rating_accepted_iff (n : Z) (required : string) :
  0 <= n ->
  snd (run (ratingChain required) (Some (decimal n)))
  = (if (1 <=? n) && (n <=? 5) then [] else ["Rating must be between 1-5"%string]) /\
  requiredNumber 1 5 (Some (decimal n)) = (if (1 <=? n) && (n <=? 5) then Some n else None).
Proof.
  intros Hn. unfold ratingChain, notEmpty, standardValidator, requiredNumber, isInt.
  cbn [run toString snd]. rewrite (intValue_decimal n Hn).
  destruct (decimal_shape n) as (c & r & -> & _ & _).
  cbn [isEmpty String.length Nat.eqb negb]. split; reflexivity.
Qed.

Lemma numeric_rating_accepted_iff_witness :
  snd (run (ratingChain "TV rating is required") (Some (decimal 5))) = [] /\
  requiredNumber 1 5 (Some (decimal 5)) = Some 5.
Proof.
  apply (numeric_rating_accepted_iff 5 "TV rating is required"). discriminate.
Defined.

(** ** The schema on its own *)



(** ** Ages as time passes *)

(** X22: the age of a record never decreases from one reference date to a
    later one. *)
Theorem age_never_decreases (today later : Date) (s : Survey.t) :
  notAfter today later ->
  getSurveyStats_age today s <= getSurveyStats_age later s.
Proof.
  unfold notAfter, getSurveyStats_age. intros H.
  destruct (Z.ltb_spec (getMonth today - getMonth (Survey.dateOfBirth s)) 0),
           (Z.eqb_spec (getMonth today - getMonth (Survey.dateOfBirth s)) 0),
           (Z.ltb_spec (getDate today) (getDate (Survey.dateOfBirth s))),
           (Z.ltb_spec (getMonth later - getMonth (Survey.dateOfBirth s)) 0),
           (Z.eqb_spec (getMonth later - getMonth (Survey.dateOfBirth s)) 0),
           (Z.ltb_spec (getDate later) (getDate (Survey.dateOfBirth s)));
    cbn [orb andb]; lia.
Qed.

Lemma age_never_decreases_witness :
  getSurveyStats_age referenceDay (sampleRecord 1990 ["Pizza"%string] 3)
  <= getSurveyStats_age {| getFullYear := 2031; getMonth := 0; getDate := 1 |}
       (sampleRecord 1990 ["Pizza"%string] 3).
Proof.
  apply (age_never_decreases referenceDay {| getFullYear := 2031; getMonth := 0; getDate := 1 |}).
  left. reflexivity.
Defined.

(** ** Statistics after submissions *)

Section StatsAfterSubmission.

Variable isEmail : string -> bool.
Variable normalizeEmail : string -> string.
Variable isISO8601 : string -> bool.
Variable newDate : string -> option Date.

Local Abbreviation postSubmit3 := (postSubmit isEmail normalizeEmail isISO8601 newDate).



End StatsAfterSubmission.


